(** * EIP-4844 fee-market simulation: the per-block transition engine

    A shallow embedding of the core cells of [eip-4844-sim.ipynb]:
    the constants, [fake_exponential] / [calc_price_data], the
    [Transaction] / [BlobTransaction] / [Block] classes, the two update
    rules [update_price] and [update_excess_data_gas], and [build_block].

    Numbers.  Gas amounts, blob counts and the excess-data-gas accumulator
    are Python [int]s and are modelled by [Z]; [//] is floor division, which
    is [Z.div] for a non-zero divisor and raises [ZeroDivisionError]
    otherwise.

    The block builder only compares prices and fee caps ([is_valid]) and
    orders the valid demand by premium; what is proved of its block holds
    for every order of the scan.  There a price or a fee cap is the exact
    value of the Python number, a rational [Q], and the premium is computed
    on exact values: the model scans in the order of the source up to the
    rounding of the premium, and it has no [OverflowError] where the source
    converts an [int] beyond the float range.

    [update_price] computes with the price.  It is embedded on binary64
    floats (the kernel's [float], IEEE 754 with rounding to nearest even),
    with Python's conversion of an [int] operand, which raises
    [OverflowError] when the [int] is too large. *)

From Stdlib Require Import ZArith QArith List Bool String Lia.
From Stdlib Require Import Floats.
From Stdlib Require Import Permutation.
Import ListNotations.

Local Open Scope Z_scope.

(** ** Outcomes of fallible code *)

Module Outcome.

(** A Python call either returns a value or raises.  The exceptions of the
    modelled cells are [ZeroDivisionError] (a division by zero) and
    [OverflowError] (an [int] too large to convert to a float); [OutOfFuel]
    is the model's own answer when the bound put on a [while] loop is too
    small. *)
Inductive outcome (A : Type) : Type :=
| Returns (a : A)
| ZeroDivisionError
| OverflowError
| OutOfFuel.

Arguments Returns {A} a.
Arguments ZeroDivisionError {A}.
Arguments OverflowError {A}.
Arguments OutOfFuel {A}.

Definition bind {A B : Type} (m : outcome A) (k : A -> outcome B) : outcome B :=
  match m with
  | Returns a => k a
  | ZeroDivisionError => ZeroDivisionError
  | OverflowError => OverflowError
  | OutOfFuel => OutOfFuel
  end.

End Outcome.

Export Outcome.

Notation "x <- m ;; k" := (bind m (fun x => k))
  (at level 61, m at next level, right associativity).

(** Python's [a // b] on integers. *)
Definition floordiv (a b : Z) : outcome Z :=
  if b =? 0 then ZeroDivisionError else Returns (a / b).

(** ** Constants *)

(** The [constants] dictionary.  The two execution-gas entries are written
    [30e6] and [15e6] in the notebook; both are whole numbers. *)
Definition BLOCK_RESOURCE_LIMITS : Z := 30000000.
Definition BLOCK_RESOURCE_TARGETS : Z := 15000000.
Definition BASEFEE_MAX_CHANGE_DENOMINATOR : Z := 8.
Definition MAX_DATA_GAS_PER_BLOCK : Z := 2 ^ 19.
Definition TARGET_DATA_GAS_PER_BLOCK : Z := 2 ^ 18.
Definition DATA_GAS_PER_BLOB : Z := 2 ^ 17.
Definition MIN_DATA_GASPRICE : Z := 1.
Definition DATA_GASPRICE_UPDATE_FRACTION : Z := 2225652.

(** ** The exponential price oracle *)

(** The body of the [while numerator_accum > 0] loop of [fake_exponential],
    with the loop variables [i], [output] and [numerator_accum] as
    arguments. *)
Fixpoint fake_exponential_loop (fuel : nat) (numerator denominator : Z)
    (i output numerator_accum : Z) {struct fuel} : outcome Z :=
  if numerator_accum >? 0 then
    match fuel with
    | O => OutOfFuel
    | S fuel' =>
        let output' := output + numerator_accum in
        numerator_accum' <-
          floordiv (numerator_accum * numerator) (denominator * i);;
        fake_exponential_loop fuel' numerator denominator
          (i + 1) output' numerator_accum'
    end
  else Returns output.

(** A number of iterations that suffices whenever [denominator] is positive
    and [numerator] is not negative (lemma [fake_exponential_loop_returns]):
    [steps] iterations bring [denominator * i] to twice the numerator, each
    of them multiplying the term by less than [2 ^ width]; from there on
    every iteration at least halves it. *)
Definition fake_exponential_fuel (factor numerator denominator : Z) : nat :=
  let steps := Z.to_nat (2 * numerator / denominator + 1) in
  let width := Z.to_nat (Z.log2 numerator + 1) in
  let bits := Z.to_nat (Z.log2 (factor * denominator) + 1) in
  (steps + bits + steps * width + 1)%nat.

Definition fake_exponential (factor numerator denominator : Z) : outcome Z :=
  output <-
    fake_exponential_loop (fake_exponential_fuel factor numerator denominator)
      numerator denominator 1 0 (factor * denominator);;
  floordiv output denominator.

Definition calc_price_data (excess_data_gas : Z) : outcome Z :=
  fake_exponential MIN_DATA_GASPRICE excess_data_gas
    DATA_GASPRICE_UPDATE_FRACTION.

(** ** Fee entities *)

(** [class Transaction].  [tx_hash] is drawn at random by the constructor;
    here it is a field like the others. *)
Record Transaction : Type := mkTransaction {
  tx_hash : string;
  max_fee_per_gas : Q;
  max_priority_fee_per_gas : Q;
  gas_used : Z
}.

(** [class BlobTransaction(Transaction)]: the inherited fields and the two
    added by the subclass. *)
Record BlobTransaction : Type := mkBlobTransaction {
  blob_base : Transaction;
  max_fee_per_data_gas : Q;
  blob_hashes : Z
}.

(** An object found in a demand mapping or in a block is an instance of one
    of the two classes. *)
Inductive Tx : Type :=
| Plain (t : Transaction)
| Blob (b : BlobTransaction).

(** [isinstance(tx, BlobTransaction)] *)
Definition is_blob (tx : Tx) : bool :=
  match tx with
  | Plain _ => false
  | Blob _ => true
  end.

(** The fields every transaction has. *)
Definition base (tx : Tx) : Transaction :=
  match tx with
  | Plain t => t
  | Blob b => blob_base b
  end.

(** [a < b] on rationals, as a boolean. *)
Definition Qlt_bool (a b : Q) : bool := negb (Qle_bool b a).

(** Python's [min(a, b)]: the first argument unless the second is smaller. *)
Definition py_min (a b : Q) : Q := if Qlt_bool b a then b else a.

(** [is_valid(self, price, price_data)], dispatched on the class: the base
    class ignores [price_data]. *)
Definition is_valid (tx : Tx) (price : Q) (price_data : Z) : bool :=
  match tx with
  | Plain t => Qle_bool price (max_fee_per_gas t)
  | Blob b =>
      Qle_bool price (max_fee_per_gas (blob_base b))
      && Qle_bool (inject_Z price_data) (max_fee_per_data_gas b)
  end.

(** [get_premium(self, price)], inherited unchanged by [BlobTransaction];
    on the exact values of its operands, where the source rounds the
    difference and the product when an operand is a float. *)
Definition get_premium (tx : Tx) (price : Q) : Q :=
  let priority_fee :=
    py_min (max_fee_per_gas (base tx) - price)%Q
           (max_priority_fee_per_gas (base tx)) in
  (inject_Z (gas_used (base tx)) * priority_fee)%Q.

(** [class Block] *)
Record Block : Type := mkBlock { txs : list Tx }.

(** The state dictionary [s] of the simulation.  [demand] is a [dict]; it is
    only ever traversed with [items()], in insertion order, so it is kept as
    the list of its items. *)
Record State : Type := mkState {
  demand : list (string * Tx);
  price : Q;
  excess_data_gas : Z;
  latest_block : Block
}.

(** The dictionary [{"block": ...}] that [build_block] hands to the update
    functions as [_input]. *)
Record Signal : Type := mkSignal { block : Block }.

(** ** Price update rules *)

(** [sum([...])] over integers: the items are added from the left,
    starting at [0]. *)
Definition sum (l : list Z) : Z := fold_left Z.add l 0.

(** A Python number: an [int] or a [float]. *)
Inductive number : Type :=
| PyInt (z : Z)
| PyFloat (f : float).

(** [float(z)] for an [int]: the nearest binary64 float, ties to even;
    [OverflowError] when that is beyond the largest finite float. *)
Definition float_of_int (z : Z) : outcome float :=
  match binary_normalize prec emax z 0 false with
  | S754_infinity _ => OverflowError
  | x => Returns (SF2Prim x)
  end.

(** The conversion of an operand of a mixed operation. *)
Definition to_float (n : number) : outcome float :=
  match n with
  | PyInt z => float_of_int z
  | PyFloat f => Returns f
  end.

(** [a / b] on floats. *)
Definition float_truediv (a b : float) : outcome float :=
  if (b =? 0)%float then ZeroDivisionError else Returns (a / b)%float.

(** [update_price].  The arguments [params], [step] and [h] are not read by
    any of the update functions and are left out; of [s] only [s["price"]]
    is read, the argument [price]: the [int] of the initial conditions or
    the float that an earlier call returned.  [target] is the float [15e6]
    of the constants, [utilized] an [int], and so are the denominator [8]
    and the literal [1]: each is converted where it meets a float. *)
Definition update_price (price : number) (_input : Signal)
    : outcome (string * float) :=
  let block := block _input in
  let target := 15e6%float in
  let utilized := sum (map (fun tx => gas_used (base tx)) (txs block)) in
  utilized' <- float_of_int utilized;;
  denominator <- float_of_int BASEFEE_MAX_CHANGE_DENOMINATOR;;
  quotient <- float_truediv (utilized' - target) (target * denominator);;
  one <- float_of_int 1;;
  price' <- to_float price;;
  let new_price := (price' * (one + quotient))%float in
  Returns ("price"%string, new_price).

(** The update formula in the words of the specification,
    [price * (1 + (utilized - target) / (target * change_denominator))],
    on floats. *)
Definition spec_new_price (price utilized target change_denominator : float)
    : float :=
  (price * (1 + (utilized - target) / (target * change_denominator)))%float.

(** [update_excess_data_gas].  Python's [max(a, 0)] on integers is
    [Z.max a 0]. *)
Definition update_excess_data_gas (s : State) (_input : Signal) : string * Z :=
  let block := block _input in
  let excess_data_gas := excess_data_gas s in
  let target := TARGET_DATA_GAS_PER_BLOCK in
  let utilized :=
    DATA_GAS_PER_BLOB
    * sum (map (fun tx => match tx with
                          | Blob b => blob_hashes b
                          | Plain _ => 0
                          end) (txs block)) in
  let new_excess_data_gas := Z.max (excess_data_gas + (utilized - target)) 0 in
  ("excess_data_gas"%string, new_excess_data_gas).

(** ** Block builder *)

(** [sorted(l, key=...)]: ascending in the key, comparing keys with [<]
    only, and stable: of two items with equal keys the one that comes first
    in [l] comes first in the result. *)
Fixpoint insert_by {A : Type} (key : A -> Q) (x : A) (l : list A) : list A :=
  match l with
  | [] => [x]
  | y :: l' =>
      if Qlt_bool (key y) (key x) then y :: insert_by key x l'
      else x :: y :: l'
  end.

Fixpoint sorted {A : Type} (key : A -> Q) (l : list A) : list A :=
  match l with
  | [] => []
  | x :: l' => insert_by key x (sorted key l')
  end.

(** The [for tx in sorted_valid_demand] loop of [build_block], with the loop
    variables [utilized], [utilized_data] and [included_transactions] as
    arguments.  For a blob transaction the three branches under
    [utilized <= gas_limit] are the [if], the [elif] ([continue]) and the
    [else] of the source; a transaction of the base class fails both
    [isinstance] tests and takes the [else].  The outer [else] is the
    [break]. *)
Fixpoint scan (gas_limit data_limit : Z) (pending : list Tx)
    (utilized utilized_data : Z) (included_transactions : list Tx)
    {struct pending} : list Tx :=
  match pending with
  | [] => included_transactions
  | tx :: rest =>
      if utilized <=? gas_limit then
        match tx with
        | Blob b =>
            if utilized_data <=? data_limit then
              scan gas_limit data_limit rest
                (utilized + gas_used (base tx))
                (utilized_data + blob_hashes b * DATA_GAS_PER_BLOB)
                (included_transactions ++ [tx])
            else if utilized_data >? data_limit then
              scan gas_limit data_limit rest
                utilized utilized_data included_transactions
            else
              scan gas_limit data_limit rest
                (utilized + gas_used (base tx)) utilized_data
                (included_transactions ++ [tx])
        | Plain _ =>
            scan gas_limit data_limit rest
              (utilized + gas_used (base tx)) utilized_data
              (included_transactions ++ [tx])
        end
      else included_transactions
  end.

(** The list comprehension and the sort of [build_block].  The sort key is
    the exact premium: where the source's rounded premiums compare otherwise
    the order differs; lemma [scan_any_order] is about every order. *)
Definition sorted_valid_demand (demand : list (string * Tx)) (price : Q)
    (price_data : Z) : list Tx :=
  sorted (fun tx => (- get_premium tx price)%Q)
    (map snd (filter (fun item => is_valid (snd item) price price_data)
                demand)).

(** [build_block] *)
Definition build_block (s : State) : outcome Signal :=
  let demand := demand s in
  let price := price s in
  let excess_data_gas := excess_data_gas s in
  price_data <- calc_price_data excess_data_gas;;
  let sorted_valid_demand := sorted_valid_demand demand price price_data in
  let gas_limit := BLOCK_RESOURCE_LIMITS in
  let data_limit := MAX_DATA_GAS_PER_BLOCK in
  let included_transactions :=
    scan gas_limit data_limit sorted_valid_demand 0 0 [] in
  Returns (mkSignal (mkBlock included_transactions)).

(** [record_latest_block] *)
Definition record_latest_block (s : State) (_input : Signal) : string * Block :=
  ("latest_block"%string, block _input).

(** ** Measures of a block used in the statements *)

(** Execution gas of a list of transactions: the [utilized] of
    [update_price] and of the block builder. *)
Definition gas_utilization (l : list Tx) : Z :=
  sum (map (fun tx => gas_used (base tx)) l).

(** Data gas one transaction consumes: [blob_hashes * DATA_GAS_PER_BLOB] for
    a blob transaction, nothing otherwise. *)
Definition tx_data_gas (tx : Tx) : Z :=
  match tx with
  | Blob b => blob_hashes b * DATA_GAS_PER_BLOB
  | Plain _ => 0
  end.

(** Data gas of a list of transactions, summed transaction by
    transaction. *)
Definition data_gas_utilization (l : list Tx) : Z := sum (map tx_data_gas l).

(** The largest item of a list of integers ([0] for the empty list). *)
Definition largest (l : list Z) : Z :=
  match l with
  | [] => 0
  | x :: l' => fold_left Z.max l' x
  end.

(** The largest [gas_used] among the transactions of a list, and the largest
    data gas among its blob transactions. *)
Definition largest_gas_used (l : list Tx) : Z :=
  largest (map (fun tx => gas_used (base tx)) l).

Definition largest_data_gas (l : list Tx) : Z :=
  largest (map tx_data_gas (filter is_blob l)).

(** ** Sample transactions, blocks and states *)

(** The constructors, with the parameters in the order of the two
    [__init__] methods; the hash comes first. *)
Definition new_Transaction (tx_hash : string)
    (max_priority_fee_per_gas : Q) (gas_used : Z) (max_fee_per_gas : Q) : Tx :=
  Plain (mkTransaction tx_hash max_fee_per_gas max_priority_fee_per_gas
           gas_used).

Definition new_BlobTransaction (tx_hash : string)
    (max_priority_fee_per_gas : Q) (gas_used : Z) (max_fee_per_gas : Q)
    (max_fee_per_data_gas : Q) (blob_hashes : Z) : Tx :=
  Blob (mkBlobTransaction
          (mkTransaction tx_hash max_fee_per_gas max_priority_fee_per_gas
             gas_used)
          max_fee_per_data_gas blob_hashes).

(** A state with the given demand, price and excess data gas, and the empty
    [latest_block] of the initial conditions. *)
Definition state_of (demand : list Tx) (price : Q) (excess_data_gas : Z)
    : State :=
  mkState (map (fun tx => (tx_hash (base tx), tx)) demand) price
    excess_data_gas (mkBlock []).

Definition signal_of (l : list Tx) : Signal := mkSignal (mkBlock l).

(** Six hundred transactions of 50000 gas: a block at the gas limit. *)
Definition full_block : list Tx :=
  repeat (new_Transaction "aa" 1 50000 100) 600.


(** Three malformed records: a negative [gas_used], a negative
    [max_priority_fee_per_gas] and a negative [blob_hashes]. *)
Definition negative_gas_tx : Tx := new_Transaction "n1" 1 (-1) 100.
Definition negative_tip_tx : Tx := new_Transaction "n2" (-1) 50000 100.
Definition negative_blobs_tx : Tx :=
  new_BlobTransaction "n3" 1 50000 100 50 (-1).

Definition malformed_state : State :=
  state_of [negative_gas_tx; negative_tip_tx; negative_blobs_tx] 1 0.

(** Scenario D: the blob transaction has the highest premium and a data-gas
    fee cap of 1, while the data price at this excess is 2. *)
Definition cheap_blob_tx : Tx := new_BlobTransaction "b1" 1000 50000 2000 1 2.
Definition ordinary_tx : Tx := new_Transaction "t1" 5 50000 120.

Definition scenario_D_state : State :=
  state_of [ordinary_tx; cheap_blob_tx] 80 2225652.

(** Scenario C: the same gas, fee caps 120 and 90; and a third transaction
    whose premium ties with that of the second. *)
Definition fee120_tx : Tx := new_Transaction "c1" 100 50000 120.
Definition fee90_tx : Tx := new_Transaction "c2" 100 50000 90.
Definition fee90_tx' : Tx := new_Transaction "c3" 10 50000 95.

(** Two transactions that each fill a block, in premium order. *)
Definition huge_tx_1 : Tx := new_Transaction "h1" 9 30000000 120.
Definition huge_tx_2 : Tx := new_Transaction "h2" 8 30000000 120.
Definition huge_tx_3 : Tx := new_Transaction "h3" 7 30000000 120.

(** Blob transactions of five, four and one blobs, in premium order with the
    ordinary transaction last. *)
Definition blob5_tx : Tx := new_BlobTransaction "b5" 9 50000 120 50 5.
Definition blob4_tx : Tx := new_BlobTransaction "b4" 9 50000 120 50 4.
Definition blob4_tx' : Tx := new_BlobTransaction "b6" 8 50000 120 50 4.
Definition blob1_tx : Tx := new_BlobTransaction "b7" 7 50000 120 50 1.

(** ** The backtest builder *)

(** [build_block_from_data] of the first backtest (historical demand x1.5):
    the selection is removed, every pending transaction is scanned in the
    order of the demand mapping.  The data price is still computed, and
    not used. *)
Definition build_block_from_data (s : State) : outcome Signal :=
  let demand := demand s in
  let price := price s in
  let excess_data_gas := excess_data_gas s in
  price_data <- calc_price_data excess_data_gas;;
  let sorted_valid_demand := map snd demand in
  let gas_limit := BLOCK_RESOURCE_LIMITS in
  let data_limit := MAX_DATA_GAS_PER_BLOCK in
  let included_transactions :=
    scan gas_limit data_limit sorted_valid_demand 0 0 [] in
  Returns (mkSignal (mkBlock included_transactions)).

(** Three hundred transactions of 50000 gas: a block at the gas target. *)
Definition target_block : list Tx :=
  repeat (new_Transaction "aa" 1 50000 100) 300.

(** A block whose only transaction has a negative [gas_used], three times
    the target. *)
Definition halving_block : list Tx :=
  [new_Transaction "hh" 1 (-45000000) 100].

(** A block that uses one transaction's worth of gas, and one whose
    transaction uses more gas than a float can hold. *)
Definition small_block : list Tx := [new_Transaction "ss" 1 50000 100].
Definition overflowing_block : list Tx :=
  [new_Transaction "oo" 1 (10 ^ 400) 100].

(** Two records with a negative fee cap, one of each class. *)
Definition negative_fee_tx : Tx := new_Transaction "f1" 1 50000 (-5).
Definition negative_data_fee_tx : Tx :=
  new_BlobTransaction "f2" 1 50000 100 (-1) 1.

Definition negative_caps_state : State :=
  state_of [negative_fee_tx; negative_data_fee_tx; ordinary_tx] 1 0.

(** * Properties *)

(** ** The exponential price oracle *)

Section FakeExponential.

Variables numerator denominator : Z.
Hypothesis denominator_pos : 0 < denominator.

Lemma floordiv_returns (a b : Z) : b <> 0 -> floordiv a b = Returns (a / b).
Proof.
  intros Hb. unfold floordiv.
  destruct (Z.eqb_spec b 0); [contradiction | reflexivity].
Qed.

(** One unfolding of the loop when the term is still positive. *)
Lemma fake_exponential_loop_step (fuel : nat) (i output acc : Z) :
  1 <= i -> 0 < acc ->
  fake_exponential_loop (S fuel) numerator denominator i output acc =
  fake_exponential_loop fuel numerator denominator (i + 1) (output + acc)
    (acc * numerator / (denominator * i)).
Proof.
  intros Hi Hacc. simpl.
  replace (acc >? 0) with true by (symmetry; apply Z.gtb_lt; lia).
  rewrite floordiv_returns by nia. reflexivity.
Qed.

(** The loop is over as soon as the term is not positive. *)
Lemma fake_exponential_loop_done (fuel : nat) (i output acc : Z) :
  acc <= 0 ->
  fake_exponential_loop fuel numerator denominator i output acc =
  Returns output.
Proof.
  intros Hacc.
  assert (E : (acc >? 0) = false).
  { destruct (acc >? 0) eqn:E; [apply Z.gtb_lt in E; lia | reflexivity]. }
  destruct fuel; simpl; rewrite E; reflexivity.
Qed.

(** Once [denominator * i] is at least twice the numerator, every
    iteration at least halves the term. *)
Lemma next_term_halves (i acc : Z) :
  1 <= i -> 0 <= numerator -> 0 < acc -> 2 * numerator <= denominator * i ->
  2 * (acc * numerator / (denominator * i)) <= acc.
Proof.
  intros Hi Hn Hacc H2.
  assert (Hdi : 0 < denominator * i) by nia.
  pose proof (Z.mul_div_le (acc * numerator) (denominator * i) Hdi) as Hq.
  set (q := acc * numerator / (denominator * i)) in *.
  destruct (Z_le_gt_dec (2 * q) acc) as [|Hgt]; [assumption | exfalso].
  assert (denominator * i * acc < denominator * i * (2 * q)) by nia.
  nia.
Qed.

Lemma halving_phase_returns :
  0 <= numerator ->
  forall (k fuel : nat) (i output acc : Z),
    1 <= i -> 2 * numerator <= denominator * i ->
    acc < 2 ^ Z.of_nat k -> (k + 1 <= fuel)%nat ->
    exists r, fake_exponential_loop fuel numerator denominator i output acc
              = Returns r.
Proof.
  intros Hn k.
  induction k as [|k IH]; intros fuel i output acc Hi H2 Hacc Hfuel.
  - exists output. apply fake_exponential_loop_done.
    change (2 ^ Z.of_nat 0) with 1 in Hacc. lia.
  - destruct (Z_le_gt_dec acc 0) as [Hle|Hgt].
    + exists output. now apply fake_exponential_loop_done.
    + destruct fuel as [|fuel]; [lia|].
      rewrite fake_exponential_loop_step by lia.
      apply IH; try lia.
      pose proof (next_term_halves i acc Hi Hn ltac:(lia) H2).
      rewrite Nat2Z.inj_succ, Z.pow_succ_r in Hacc by lia. lia.
Qed.

(** The next term is at most [numerator] times the current one. *)
Lemma next_term_bound (i acc : Z) :
  1 <= i -> 0 <= numerator -> 0 < acc ->
  acc * numerator / (denominator * i) <= acc * numerator.
Proof.
  intros Hi Hn Hacc.
  assert (Hdi : 1 <= denominator * i) by nia.
  apply Z.div_le_upper_bound; [lia|].
  assert (0 <= acc * numerator) by nia. nia.
Qed.

(** Termination: the iteration count of [fake_exponential_fuel], in the
    general form that the induction needs. *)
Lemma fake_exponential_loop_returns (width : nat) :
  0 <= numerator < 2 ^ Z.of_nat width ->
  forall (steps bits fuel : nat) (i output acc : Z),
    1 <= i -> 2 * numerator <= denominator * (i + Z.of_nat steps) ->
    acc < 2 ^ Z.of_nat bits ->
    (steps + bits + steps * width + 1 <= fuel)%nat ->
    exists r, fake_exponential_loop fuel numerator denominator i output acc
              = Returns r.
Proof.
  intros Hn steps.
  induction steps as [|steps IH];
    intros bits fuel i output acc Hi H2 Hacc Hfuel.
  - apply (halving_phase_returns (proj1 Hn) bits); try lia.
  - destruct (Z_le_gt_dec acc 0) as [Hle|Hgt].
    + exists output. now apply fake_exponential_loop_done.
    + destruct fuel as [|fuel]; [lia|].
      rewrite fake_exponential_loop_step by lia.
      apply (IH (bits + width)%nat); try lia.
      pose proof (next_term_bound i acc Hi (proj1 Hn) ltac:(lia)).
      rewrite Nat2Z.inj_add, Z.pow_add_r by lia.
      assert (0 < 2 ^ Z.of_nat bits) by (apply Z.pow_pos_nonneg; lia).
      nia.
Qed.

End FakeExponential.

Section FakeExponentialResult.

Variables factor denominator : Z.
Hypothesis denominator_pos : 0 < denominator.

(** [fake_exponential] returns on every non-negative numerator. *)
Lemma fake_exponential_returns (numerator : Z) :
  0 <= numerator ->
  exists output,
    fake_exponential_loop (fake_exponential_fuel factor numerator denominator)
      numerator denominator 1 0 (factor * denominator) = Returns output
    /\ fake_exponential factor numerator denominator
       = Returns (output / denominator).
Proof.
  intros Hn.
  set (width := Z.to_nat (Z.log2 numerator + 1)).
  set (steps := Z.to_nat (2 * numerator / denominator + 1)).
  set (bits := Z.to_nat (Z.log2 (factor * denominator) + 1)).
  assert (Hw : 0 <= numerator < 2 ^ Z.of_nat width).
  { split; [assumption|]. unfold width.
    pose proof (Z.log2_nonneg numerator).
    rewrite Z2Nat.id by lia.
    destruct (Z.eq_dec numerator 0) as [->|]; [reflexivity|].
    apply Z.log2_spec. lia. }
  assert (Hb : factor * denominator < 2 ^ Z.of_nat bits).
  { unfold bits. pose proof (Z.log2_nonneg (factor * denominator)).
    rewrite Z2Nat.id by lia.
    destruct (Z_le_gt_dec (factor * denominator) 0).
    - assert (0 < 2 ^ (Z.log2 (factor * denominator) + 1))
        by (apply Z.pow_pos_nonneg; lia).
      lia.
    - apply Z.log2_spec. lia. }
  assert (Hs : 2 * numerator <= denominator * (1 + Z.of_nat steps)).
  { unfold steps.
    assert (0 <= 2 * numerator / denominator) by (apply Z.div_pos; lia).
    rewrite Z2Nat.id by lia.
    pose proof (Z.mul_succ_div_gt (2 * numerator) denominator denominator_pos).
    lia. }
  destruct (fake_exponential_loop_returns numerator denominator
              denominator_pos width Hw steps bits
              (fake_exponential_fuel factor numerator denominator)
              1 0 (factor * denominator)) as [output Hout]; try lia.
  { unfold fake_exponential_fuel. fold width steps bits. lia. }
  exists output. split; [assumption|].
  unfold fake_exponential. rewrite Hout. simpl.
  apply floordiv_returns. lia.
Qed.

(** The loop only ever adds positive terms to [output]. *)
Lemma fake_exponential_loop_ge (numerator : Z) (fuel : nat) :
  forall (i output acc r : Z),
    fake_exponential_loop fuel numerator denominator i output acc = Returns r ->
    output <= r.
Proof.
  induction fuel as [|fuel IH]; intros i output acc r; simpl;
    destruct (acc >? 0) eqn:E; try congruence.
  - intros H. injection H as <-. lia.
  - unfold floordiv. destruct (denominator * i =? 0); simpl; [discriminate|].
    intros H. apply IH in H. apply Z.gtb_lt in E. lia.
  - intros H. injection H as <-. lia.
Qed.

(** A larger numerator, a larger term and a larger partial sum give a
    larger result, whatever the two iteration bounds. *)
Lemma fake_exponential_loop_monotone (n1 n2 : Z) (fuel1 : nat) :
  0 <= n1 <= n2 ->
  forall (fuel2 : nat) (i output1 output2 acc1 acc2 r1 r2 : Z),
    1 <= i -> output1 <= output2 -> acc1 <= acc2 ->
    fake_exponential_loop fuel1 n1 denominator i output1 acc1 = Returns r1 ->
    fake_exponential_loop fuel2 n2 denominator i output2 acc2 = Returns r2 ->
    r1 <= r2.
Proof.
  intros Hn.
  induction fuel1 as [|fuel1 IH];
    intros fuel2 i output1 output2 acc1 acc2 r1 r2 Hi Hout Hacc H1 H2;
    destruct (Z_le_gt_dec acc1 0) as [Hle|Hgt].
  - rewrite fake_exponential_loop_done in H1 by assumption.
    injection H1 as <-. apply fake_exponential_loop_ge in H2. lia.
  - simpl in H1. replace (acc1 >? 0) with true in H1
      by (symmetry; apply Z.gtb_lt; lia).
    discriminate.
  - rewrite fake_exponential_loop_done in H1 by assumption.
    injection H1 as <-. apply fake_exponential_loop_ge in H2. lia.
  - destruct fuel2 as [|fuel2].
    + simpl in H2. replace (acc2 >? 0) with true in H2
        by (symmetry; apply Z.gtb_lt; lia).
      discriminate.
    + rewrite fake_exponential_loop_step in H1, H2 by lia.
      refine (IH _ _ _ _ _ _ _ _ _ _ _ H1 H2); try lia.
      apply Z.div_le_mono; nia.
Qed.

Lemma fake_exponential_monotone (n1 n2 : Z) :
  0 <= n1 <= n2 ->
  exists p1 p2,
    fake_exponential factor n1 denominator = Returns p1
    /\ fake_exponential factor n2 denominator = Returns p2
    /\ p1 <= p2.
Proof.
  intros Hn.
  destruct (fake_exponential_returns n1) as (o1 & L1 & F1); [lia|].
  destruct (fake_exponential_returns n2) as (o2 & L2 & F2); [lia|].
  exists (o1 / denominator), (o2 / denominator).
  repeat split; try assumption.
  apply Z.div_le_mono; [assumption|].
  eapply (fake_exponential_loop_monotone n1 n2 _ Hn _ 1 0 0
            (factor * denominator) (factor * denominator) o1 o2);
    try eassumption; lia.
Qed.

(** With a zero numerator the series has its first term only. *)
Lemma fake_exponential_at_zero :
  0 < factor -> fake_exponential factor 0 denominator = Returns factor.
Proof.
  intros Hf.
  destruct (fake_exponential_returns 0) as (output & Hloop & Hres); [lia|].
  rewrite Hres. f_equal.
  assert (Hfuel : exists fuel,
             fake_exponential_fuel factor 0 denominator = S fuel).
  { unfold fake_exponential_fuel.
    exists (Z.to_nat (2 * 0 / denominator + 1)
            + Z.to_nat (Z.log2 (factor * denominator) + 1)
            + Z.to_nat (2 * 0 / denominator + 1) * Z.to_nat (Z.log2 0 + 1))%nat.
    lia. }
  destruct Hfuel as [fuel Hfuel]. rewrite Hfuel in Hloop.
  rewrite fake_exponential_loop_step in Hloop by nia.
  rewrite Z.mul_0_r, Z.div_0_l in Hloop by lia.
  rewrite fake_exponential_loop_done in Hloop by lia.
  injection Hloop as <-.
  change (0 + factor * denominator) with (factor * denominator).
  apply Z.div_mul. lia.
Qed.

(** The result is never below [factor]: the first term alone is
    [factor * denominator]. *)
Lemma fake_exponential_ge_factor (numerator p : Z) :
  0 < factor ->
  fake_exponential factor numerator denominator = Returns p -> factor <= p.
Proof.
  intros Hf. unfold fake_exponential.
  destruct (fake_exponential_loop _ _ _ _ _ _) as [output| | |] eqn:Hloop;
    simpl; try discriminate.
  rewrite floordiv_returns by lia. intros H. injection H as <-.
  destruct (fake_exponential_fuel factor numerator denominator) as [|fuel].
  - simpl in Hloop.
    replace (factor * denominator >? 0) with true in Hloop
      by (symmetry; apply Z.gtb_lt; nia).
    discriminate.
  - rewrite fake_exponential_loop_step in Hloop by nia.
    apply fake_exponential_loop_ge in Hloop.
    apply Z.div_le_lower_bound; lia.
Qed.

(** A negative numerator ends the loop after its first iteration. *)
Lemma fake_exponential_negative (numerator : Z) :
  0 < factor -> numerator < 0 ->
  fake_exponential factor numerator denominator = Returns factor.
Proof.
  intros Hf Hn. unfold fake_exponential.
  assert (Hfuel : exists fuel,
             fake_exponential_fuel factor numerator denominator = S fuel).
  { unfold fake_exponential_fuel.
    exists (Z.to_nat (2 * numerator / denominator + 1)
            + Z.to_nat (Z.log2 (factor * denominator) + 1)
            + Z.to_nat (2 * numerator / denominator + 1)
              * Z.to_nat (Z.log2 numerator + 1))%nat.
    lia. }
  destruct Hfuel as [fuel ->].
  rewrite fake_exponential_loop_step by nia.
  rewrite fake_exponential_loop_done.
  - simpl. rewrite floordiv_returns by lia. f_equal.
    apply Z.div_mul. lia.
  - replace (denominator * 1) with denominator by lia.
    replace (factor * denominator * numerator)
      with (factor * numerator * denominator) by lia.
    rewrite Z.div_mul by lia. nia.
Qed.

End FakeExponentialResult.

(** ** The configured oracle *)

Lemma update_fraction_pos : 0 < DATA_GASPRICE_UPDATE_FRACTION.
Proof. reflexivity. Qed.

Lemma min_data_gasprice_pos : 0 < MIN_DATA_GASPRICE.
Proof. reflexivity. Qed.

(** [calc_price_data] returns on every integer, and never less than the
    minimum price. *)
Lemma calc_price_data_returns (excess_data_gas : Z) :
  exists price_data,
    calc_price_data excess_data_gas = Returns price_data
    /\ MIN_DATA_GASPRICE <= price_data.
Proof.
  unfold calc_price_data.
  destruct (Z_lt_le_dec excess_data_gas 0) as [Hneg|Hpos].
  - exists MIN_DATA_GASPRICE. split; [|lia].
    apply fake_exponential_negative;
      [exact update_fraction_pos | exact min_data_gasprice_pos | assumption].
  - destruct (fake_exponential_returns MIN_DATA_GASPRICE
                DATA_GASPRICE_UPDATE_FRACTION update_fraction_pos
                excess_data_gas Hpos) as (output & _ & Hres).
    eexists. split; [exact Hres|].
    eapply fake_exponential_ge_factor;
      [exact update_fraction_pos | exact min_data_gasprice_pos | exact Hres].
Qed.

(** C6.  At [excess_data_gas = 0] the data-price oracle returns exactly
    [MIN_DATA_GASPRICE]: the series stops after its first term, and the
    final integer division gives back the factor.  The same holds for any
    positive minimum price and update fraction. *)
Theorem calc_price_data_at_zero :
  calc_price_data 0 = Returns MIN_DATA_GASPRICE
  /\ forall factor denominator,
       0 < factor -> 0 < denominator ->
       fake_exponential factor 0 denominator = Returns factor.
Proof.
  split.
  - unfold calc_price_data.
    apply fake_exponential_at_zero;
      [exact update_fraction_pos | exact min_data_gasprice_pos].
  - intros factor denominator Hf Hd.
    apply fake_exponential_at_zero; assumption.
Qed.

(** C7.  The data-price oracle is monotone: for integers
    [0 <= e1 <= e2] both calls return, and the price at [e1] is at most the
    price at [e2].  The same holds for any positive minimum price and update
    fraction: [fake_exponential] is non-decreasing in its numerator. *)
Theorem calc_price_data_monotone (e1 e2 : Z) :
  0 <= e1 -> e1 <= e2 ->
  (exists p1 p2,
      calc_price_data e1 = Returns p1
      /\ calc_price_data e2 = Returns p2
      /\ p1 <= p2)
  /\ forall factor denominator,
       0 < factor -> 0 < denominator ->
       exists p1 p2,
         fake_exponential factor e1 denominator = Returns p1
         /\ fake_exponential factor e2 denominator = Returns p2
         /\ p1 <= p2.
Proof.
  intros H1 H2. split.
  - unfold calc_price_data.
    apply fake_exponential_monotone; [exact update_fraction_pos | lia].
  - intros factor denominator _ Hd.
    apply fake_exponential_monotone; [exact Hd | lia].
Qed.

Lemma calc_price_data_monotone_witness :
  0 <= 2225652 /\ 2225652 <= 22256520
  /\ exists p1 p2,
       calc_price_data 2225652 = Returns p1
       /\ calc_price_data 22256520 = Returns p2
       /\ p1 <= p2.
Proof.
  split; [lia|]. split; [lia|].
  refine (proj1 (calc_price_data_monotone 2225652 22256520 _ _)); lia.
Defined.

(** The prices of the two calls above, computed. *)
Example calc_price_data_samples :
  calc_price_data 2225652 = Returns 2
  /\ calc_price_data 22256520 = Returns 22026.
Proof. split; vm_compute; reflexivity. Qed.

(** ** Sums and maxima *)

Lemma sum_snoc (l : list Z) (x : Z) : sum (l ++ [x]) = sum l + x.
Proof. unfold sum. rewrite fold_left_app. reflexivity. Qed.

Lemma fold_left_add_shift (l : list Z) (a : Z) :
  fold_left Z.add l a = a + fold_left Z.add l 0.
Proof.
  revert a. induction l as [|x l IH]; intros a; simpl; [lia|].
  rewrite (IH (a + x)), (IH x). lia.
Qed.

Lemma sum_cons (x : Z) (l : list Z) : sum (x :: l) = x + sum l.
Proof. unfold sum. simpl. apply fold_left_add_shift. Qed.

Lemma gas_utilization_snoc (l : list Tx) (tx : Tx) :
  gas_utilization (l ++ [tx]) = gas_utilization l + gas_used (base tx).
Proof. unfold gas_utilization. rewrite map_app. apply sum_snoc. Qed.

Lemma data_gas_utilization_snoc (l : list Tx) (tx : Tx) :
  data_gas_utilization (l ++ [tx]) = data_gas_utilization l + tx_data_gas tx.
Proof. unfold data_gas_utilization. rewrite map_app. apply sum_snoc. Qed.

Lemma largest_snoc_ge (l : list Z) (x : Z) : x <= largest (l ++ [x]).
Proof.
  destruct l as [|y l]; simpl; [lia|].
  rewrite fold_left_app. simpl. lia.
Qed.

Lemma largest_gas_used_snoc_ge (l : list Tx) (tx : Tx) :
  gas_used (base tx) <= largest_gas_used (l ++ [tx]).
Proof. unfold largest_gas_used. rewrite map_app. apply largest_snoc_ge. Qed.

Lemma largest_data_gas_snoc_blob (l : list Tx) (b : BlobTransaction) :
  tx_data_gas (Blob b) <= largest_data_gas (l ++ [Blob b]).
Proof.
  unfold largest_data_gas. rewrite filter_app, map_app.
  apply largest_snoc_ge.
Qed.

Lemma largest_data_gas_snoc_plain (l : list Tx) (t : Transaction) :
  largest_data_gas (l ++ [Plain t]) = largest_data_gas l.
Proof.
  unfold largest_data_gas. rewrite filter_app. simpl.
  rewrite app_nil_r. reflexivity.
Qed.

(** A list that ends in [x], cut in two. *)
Lemma snoc_eq_app {A : Type} (l pre post : list A) (x : A) :
  l ++ [x] = pre ++ post ->
  post = [] \/ exists post', post = post' ++ [x] /\ l = pre ++ post'.
Proof.
  destruct post as [|y post' _] using rev_ind; [auto|].
  rewrite app_assoc. intros E. apply app_inj_tail in E.
  destruct E as [-> ->]. right. exists post'. auto.
Qed.

(** ** Filtering and sorting keep exactly the valid transactions *)

Lemma In_insert_by {A : Type} (key : A -> Q) (x y : A) (l : list A) :
  In y (insert_by key x l) <-> y = x \/ In y l.
Proof.
  induction l as [|z l IH]; simpl.
  - intuition auto.
  - destruct (Qlt_bool (key z) (key x)); simpl; [rewrite IH|];
      intuition auto.
Qed.

Lemma In_sorted {A : Type} (key : A -> Q) (y : A) (l : list A) :
  In y (sorted key l) <-> In y l.
Proof.
  induction l as [|x l IH]; simpl; [reflexivity|].
  rewrite In_insert_by, IH. intuition auto.
Qed.

Lemma In_sorted_valid_demand (demand : list (string * Tx)) (price : Q)
    (price_data : Z) (tx : Tx) :
  In tx (sorted_valid_demand demand price price_data) <->
  In tx (map snd demand) /\ is_valid tx price price_data = true.
Proof.
  unfold sorted_valid_demand. rewrite In_sorted, !in_map_iff. split.
  - intros (item & <- & Hin). apply filter_In in Hin.
    destruct Hin as [Hin Hv]. split; [exists item; auto | assumption].
  - intros [(item & <- & Hin) Hv]. exists item. split; [reflexivity|].
    apply filter_In. auto.
Qed.

(** ** The greedy scan *)

Section Scan.

Variables gas_limit data_limit : Z.

(** Case analysis on the tests of one iteration. *)
Ltac scan_cases u ud :=
  simpl;
  destruct (Z.leb_spec u gas_limit);
  [ match goal with
    | |- context [match ?tx with Plain _ => _ | Blob _ => _ end] =>
        destruct tx
    end;
    [ | destruct (Z.leb_spec ud data_limit);
        [ | replace (ud >? data_limit) with true
              by (symmetry; apply Z.gtb_lt; lia) ] ]
  | ].

(** Whatever the scan returns was included before or was still pending. *)
Lemma In_scan (tx : Tx) (pending : list Tx) :
  forall (u ud : Z) (inc : list Tx),
    In tx (scan gas_limit data_limit pending u ud inc) ->
    In tx inc \/ In tx pending.
Proof.
  induction pending as [|tx' rest IH]; intros u ud inc; [simpl; auto|].
  scan_cases u ud; intros Hin; try apply IH in Hin;
    try rewrite in_app_iff in Hin; simpl in *; intuition auto.
Qed.


(** Execution gas: while [utilized] is the gas of the included list, the
    overshoot bound is kept by every iteration. *)
Lemma scan_gas_bound (pending : list Tx) :
  forall (u ud : Z) (inc : list Tx),
    u = gas_utilization inc ->
    gas_utilization inc <= gas_limit + largest_gas_used inc ->
    gas_utilization (scan gas_limit data_limit pending u ud inc)
    <= gas_limit
       + largest_gas_used (scan gas_limit data_limit pending u ud inc).
Proof.
  induction pending as [|tx rest IH]; intros u ud inc Hu Hb; [assumption|].
  scan_cases u ud; try assumption; try (apply IH; assumption);
    (apply IH;
     [ rewrite gas_utilization_snoc; lia
     | rewrite gas_utilization_snoc;
       match goal with
       | |- context [largest_gas_used (_ ++ [?x])] =>
           pose proof (largest_gas_used_snoc_ge inc x)
       end; lia ]).
Qed.

(** Data gas: the same, for [utilized_data]. *)
Lemma scan_data_gas_bound (pending : list Tx) :
  forall (u ud : Z) (inc : list Tx),
    ud = data_gas_utilization inc ->
    data_gas_utilization inc <= data_limit + largest_data_gas inc ->
    data_gas_utilization (scan gas_limit data_limit pending u ud inc)
    <= data_limit
       + largest_data_gas (scan gas_limit data_limit pending u ud inc).
Proof.
  induction pending as [|tx rest IH]; intros u ud inc Hu Hb; [assumption|].
  scan_cases u ud; try assumption; try (apply IH; assumption).
  - apply IH.
    + rewrite data_gas_utilization_snoc. simpl. lia.
    + rewrite data_gas_utilization_snoc, largest_data_gas_snoc_plain.
      simpl. lia.
  - pose proof (largest_data_gas_snoc_blob inc b).
    apply IH; rewrite data_gas_utilization_snoc; simpl in *; lia.
Qed.

(** Above the execution-gas limit the scan is over. *)
Lemma scan_break (pending : list Tx) (u ud : Z) (inc : list Tx) :
  gas_limit < u -> scan gas_limit data_limit pending u ud inc = inc.
Proof.
  intros Hu. destruct pending as [|tx rest]; [reflexivity|].
  simpl. destruct (Z.leb_spec u gas_limit); [lia | reflexivity].
Qed.

(** Above the data-gas limit the scan goes on as if the pending blob
    transactions were not there. *)
Lemma scan_skips_blobs (pending : list Tx) :
  forall (u ud : Z) (inc : list Tx),
    data_limit < ud ->
    scan gas_limit data_limit pending u ud inc
    = scan gas_limit data_limit
        (filter (fun tx => negb (is_blob tx)) pending) u ud inc.
Proof.
  induction pending as [|tx rest IH]; intros u ud inc Hud; [reflexivity|].
  destruct tx as [t|b]; simpl.
  - destruct (Z.leb_spec u gas_limit); [apply IH; assumption | reflexivity].
  - destruct (Z.leb_spec u gas_limit).
    + destruct (Z.leb_spec ud data_limit); [lia|].
      replace (ud >? data_limit) with true
        by (symmetry; apply Z.gtb_lt; lia).
      apply IH. assumption.
    + rewrite scan_break by assumption. reflexivity.
Qed.

(** Under the execution-gas limit a transaction that is not a blob
    transaction is included, whatever the data gas used so far. *)
Lemma scan_includes_plain (tx : Tx) (rest : list Tx) (u ud : Z)
    (inc : list Tx) :
  is_blob tx = false -> u <= gas_limit ->
  scan gas_limit data_limit (tx :: rest) u ud inc
  = scan gas_limit data_limit rest (u + gas_used (base tx)) ud (inc ++ [tx]).
Proof.
  intros Hb Hu. destruct tx as [t|b]; [|discriminate].
  simpl. destruct (Z.leb_spec u gas_limit); [reflexivity | lia].
Qed.

(** Nothing follows, in the included list, a prefix whose execution gas is
    above the limit. *)
Lemma scan_nothing_after_gas_limit (pending : list Tx) :
  forall (u ud : Z) (inc : list Tx),
    u = gas_utilization inc ->
    (forall pre post, inc = pre ++ post ->
       gas_limit < gas_utilization pre -> post = []) ->
    forall pre post,
      scan gas_limit data_limit pending u ud inc = pre ++ post ->
      gas_limit < gas_utilization pre -> post = [].
Proof.
  induction pending as [|tx rest IH]; intros u ud inc Hu Hinv;
    [exact Hinv|].
  assert (Hstep : u <= gas_limit ->
            forall pre post, inc ++ [tx] = pre ++ post ->
              gas_limit < gas_utilization pre -> post = []).
  { intros Hle pre post E Hpre.
    apply snoc_eq_app in E. destruct E as [|(post' & -> & E)]; [assumption|].
    rewrite (Hinv pre post' E Hpre), app_nil_r in E. subst pre. lia. }
  scan_cases u ud; try exact Hinv.
  - refine (IH _ _ _ _ (Hstep _)); [|assumption].
    rewrite gas_utilization_snoc. lia.
  - refine (IH _ _ _ _ (Hstep _)); [|assumption].
    rewrite gas_utilization_snoc. lia.
  - exact (IH _ _ _ Hu Hinv).
Qed.

Lemma data_gas_utilization_app (l1 l2 : list Tx) :
  data_gas_utilization (l1 ++ l2)
  = data_gas_utilization l1 + data_gas_utilization l2.
Proof.
  induction l2 as [|tx l2 IH] using rev_ind.
  - rewrite app_nil_r. change (data_gas_utilization []) with 0. lia.
  - rewrite app_assoc, !data_gas_utilization_snoc, IH. lia.
Qed.

Lemma data_gas_utilization_no_blob (l : list Tx) :
  forallb (fun tx => negb (is_blob tx)) l = true ->
  data_gas_utilization l = 0.
Proof.
  induction l as [|tx l IH]; [reflexivity|].
  cbn [forallb]. intros H. apply andb_true_iff in H. destruct H as [Htx Hl].
  unfold data_gas_utilization in *. cbn [map]. rewrite sum_cons, (IH Hl).
  destruct tx; [reflexivity | discriminate].
Qed.

(** No blob transaction follows, in the included list, a prefix whose data
    gas is above the limit. *)
Lemma scan_no_blob_after_data_limit (pending : list Tx) :
  forall (u ud : Z) (inc : list Tx),
    ud = data_gas_utilization inc ->
    (forall pre post, inc = pre ++ post ->
       data_limit < data_gas_utilization pre ->
       forallb (fun tx => negb (is_blob tx)) post = true) ->
    forall pre post,
      scan gas_limit data_limit pending u ud inc = pre ++ post ->
      data_limit < data_gas_utilization pre ->
      forallb (fun tx => negb (is_blob tx)) post = true.
Proof.
  induction pending as [|tx rest IH]; intros u ud inc Hud Hinv;
    [exact Hinv|].
  assert (Hstep : (is_blob tx = true -> ud <= data_limit) ->
            forall pre post, inc ++ [tx] = pre ++ post ->
              data_limit < data_gas_utilization pre ->
              forallb (fun tx => negb (is_blob tx)) post = true).
  { intros Hle pre post E Hpre.
    apply snoc_eq_app in E. destruct E as [->|(post' & -> & E)];
      [reflexivity|].
    pose proof (Hinv pre post' E Hpre) as Hpost.
    rewrite forallb_app, Hpost. cbn [forallb andb].
    destruct (is_blob tx) eqn:Hb; [exfalso | reflexivity].
    specialize (Hle eq_refl).
    rewrite E, data_gas_utilization_app,
      (data_gas_utilization_no_blob _ Hpost) in Hud.
    lia. }
  scan_cases u ud; try exact Hinv.
  - refine (IH _ _ _ _ (Hstep _)); [|discriminate].
    rewrite data_gas_utilization_snoc. cbn [tx_data_gas]. lia.
  - refine (IH _ _ _ _ (Hstep _)); [|intros _; assumption].
    rewrite data_gas_utilization_snoc. cbn [tx_data_gas]. lia.
  - exact (IH _ _ _ Hud Hinv).
Qed.

End Scan.

(** ** The block builder *)

Lemma gas_limit_nonneg : 0 <= BLOCK_RESOURCE_LIMITS.
Proof. discriminate. Qed.

Lemma data_limit_nonneg : 0 <= MAX_DATA_GAS_PER_BLOCK.
Proof. discriminate. Qed.

(** [build_block] returns on every state: the block it returns is the scan
    of the sorted valid demand, at the data price of the oracle. *)
Lemma build_block_returns (s : State) :
  exists price_data,
    calc_price_data (excess_data_gas s) = Returns price_data
    /\ MIN_DATA_GASPRICE <= price_data
    /\ build_block s
       = Returns (mkSignal (mkBlock
           (scan BLOCK_RESOURCE_LIMITS MAX_DATA_GAS_PER_BLOCK
              (sorted_valid_demand (demand s) (price s) price_data)
              0 0 []))).
Proof.
  destruct (calc_price_data_returns (excess_data_gas s))
    as (price_data & Hpd & Hmin).
  exists price_data. repeat split; try assumption.
  unfold build_block. rewrite Hpd. reflexivity.
Qed.




(** What is proved of the block does not depend on the order of the scan:
    for valid transactions pending in any order, the scan includes only
    those and keeps both overshoot bounds. *)
Lemma scan_any_order (pending : list Tx) (price : Q) (price_data : Z) :
  (forall tx, In tx pending -> is_valid tx price price_data = true) ->
  let blk :=
    scan BLOCK_RESOURCE_LIMITS MAX_DATA_GAS_PER_BLOCK pending 0 0 [] in
  (forall tx, In tx blk ->
     In tx pending /\ is_valid tx price price_data = true)
  /\ gas_utilization blk <= BLOCK_RESOURCE_LIMITS + largest_gas_used blk
  /\ data_gas_utilization blk
     <= MAX_DATA_GAS_PER_BLOCK + largest_data_gas blk.
Proof.
  intros Hvalid blk. subst blk. split; [|split].
  - intros tx Hin. apply In_scan in Hin. destruct Hin as [[]|Hin].
    split; [exact Hin | apply Hvalid, Hin].
  - apply scan_gas_bound; [reflexivity | exact gas_limit_nonneg].
  - apply scan_data_gas_bound; [reflexivity | exact data_limit_nonneg].
Qed.

(** In the block of [build_block] nothing follows a prefix whose
    execution gas is above the limit, and no blob transaction follows a
    prefix whose data gas is above the limit: each limit is crossed by one
    transaction at most. *)
Lemma build_block_nothing_after_gas_limit (s : State) :
  exists signal,
    build_block s = Returns signal
    /\ forall pre post, txs (block signal) = pre ++ post ->
         BLOCK_RESOURCE_LIMITS < gas_utilization pre -> post = [].
Proof.
  destruct (build_block_returns s) as (price_data & _ & _ & Hblk).
  eexists. split; [exact Hblk|]. cbn [block txs].
  apply scan_nothing_after_gas_limit; [reflexivity|].
  intros pre post E _. symmetry in E. apply app_eq_nil in E. apply E.
Qed.

Lemma build_block_no_blob_after_data_limit (s : State) :
  exists signal,
    build_block s = Returns signal
    /\ forall pre post, txs (block signal) = pre ++ post ->
         MAX_DATA_GAS_PER_BLOCK < data_gas_utilization pre ->
         forallb (fun tx => negb (is_blob tx)) post = true.
Proof.
  destruct (build_block_returns s) as (price_data & _ & _ & Hblk).
  eexists. split; [exact Hblk|]. cbn [block txs].
  apply scan_no_blob_after_data_limit; [reflexivity|].
  intros pre post E _. symmetry in E. apply app_eq_nil in E.
  destruct E as [_ ->]. reflexivity.
Qed.

(** C5.  The two cutoffs of the scan are not alike.  With the running
    execution gas above [BLOCK_RESOURCE_LIMITS] the scan returns the list
    included so far, whatever is still pending.  With the running data gas
    above [MAX_DATA_GAS_PER_BLOCK] (and the execution gas within its limit)
    the pending blob transactions are passed over and the first pending
    transaction that is not a blob transaction is included; the scan then
    goes on with what follows it. *)
Theorem scan_cutoffs_asymmetric (pending blobs rest : list Tx) (tx : Tx)
    (u ud : Z) (inc : list Tx) :
  (BLOCK_RESOURCE_LIMITS < u ->
   scan BLOCK_RESOURCE_LIMITS MAX_DATA_GAS_PER_BLOCK pending u ud inc = inc)
  /\ (u <= BLOCK_RESOURCE_LIMITS -> MAX_DATA_GAS_PER_BLOCK < ud ->
      forallb is_blob blobs = true -> is_blob tx = false ->
      scan BLOCK_RESOURCE_LIMITS MAX_DATA_GAS_PER_BLOCK
        (blobs ++ tx :: rest) u ud inc
      = scan BLOCK_RESOURCE_LIMITS MAX_DATA_GAS_PER_BLOCK
          rest (u + gas_used (base tx)) ud (inc ++ [tx])).
Proof.
  split; [apply scan_break|].
  intros Hu Hud Hblobs Htx.
  rewrite scan_skips_blobs by assumption.
  rewrite filter_app.
  assert (Hnone : filter (fun tx0 => negb (is_blob tx0)) blobs = []).
  { clear -Hblobs. induction blobs as [|b blobs IH]; [reflexivity|].
    simpl in *. apply andb_true_iff in Hblobs. destruct Hblobs as [-> Hb].
    simpl. auto. }
  rewrite Hnone. cbn [app filter]. rewrite Htx. cbn [negb].
  rewrite scan_includes_plain by assumption.
  symmetry. apply scan_skips_blobs. assumption.
Qed.

(** Scenario C: at price 80 both transactions are valid and the one with
    the fee cap of 120 comes first, in either order of arrival; transactions
    of equal premium stay in their order of arrival. *)
Example sorted_valid_demand_scenario_C :
  sorted_valid_demand (demand (state_of [fee90_tx; fee120_tx] 80 0)) 80 1
  = [fee120_tx; fee90_tx]
  /\ sorted_valid_demand (demand (state_of [fee120_tx; fee90_tx] 80 0)) 80 1
     = [fee120_tx; fee90_tx]
  /\ sorted_valid_demand
       (demand (state_of [fee90_tx'; fee90_tx; fee120_tx] 80 0)) 80 1
     = [fee120_tx; fee90_tx'; fee90_tx]
  /\ sorted_valid_demand
       (demand (state_of [fee90_tx; fee90_tx'; fee120_tx] 80 0)) 80 1
     = [fee120_tx; fee90_tx; fee90_tx'].
Proof. repeat split; vm_compute; reflexivity. Qed.

(** Scenario D, on a concrete demand. *)
Example build_block_scenario_D :
  calc_price_data (excess_data_gas scenario_D_state) = Returns 2
  /\ Qlt_bool (get_premium ordinary_tx 80) (get_premium cheap_blob_tx 80)
     = true
  /\ build_block scenario_D_state = Returns (signal_of [ordinary_tx]).
Proof. repeat split; vm_compute; reflexivity. Qed.

(** The execution-gas bound is reached: the second transaction is added
    when the total is exactly at the limit, the third is not. *)
Example build_block_gas_overshoot_reached :
  build_block (state_of [huge_tx_1; huge_tx_2; huge_tx_3] 80 0)
  = Returns (signal_of [huge_tx_1; huge_tx_2])
  /\ gas_utilization [huge_tx_1; huge_tx_2]
     = BLOCK_RESOURCE_LIMITS + largest_gas_used [huge_tx_1; huge_tx_2].
Proof. split; vm_compute; reflexivity. Qed.

(** The data-gas bound is reached, and the scan goes on past the blob
    transaction it passes over. *)
Example build_block_data_gas_overshoot_reached :
  build_block (state_of [blob4_tx; blob4_tx'; blob1_tx; ordinary_tx] 80 0)
  = Returns (signal_of [blob4_tx; blob4_tx'; ordinary_tx])
  /\ data_gas_utilization [blob4_tx; blob4_tx'; ordinary_tx]
     = MAX_DATA_GAS_PER_BLOCK
       + largest_data_gas [blob4_tx; blob4_tx'; ordinary_tx].
Proof. split; vm_compute; reflexivity. Qed.

Lemma scan_cutoffs_asymmetric_witness :
  BLOCK_RESOURCE_LIMITS < 30000001
  /\ scan BLOCK_RESOURCE_LIMITS MAX_DATA_GAS_PER_BLOCK
       [blob1_tx; ordinary_tx] 30000001 0 [huge_tx_1] = [huge_tx_1]
  /\ 50000 <= BLOCK_RESOURCE_LIMITS
  /\ MAX_DATA_GAS_PER_BLOCK < 655360
  /\ scan BLOCK_RESOURCE_LIMITS MAX_DATA_GAS_PER_BLOCK
       ([blob4_tx; blob1_tx] ++ ordinary_tx :: [blob4_tx'])
       50000 655360 [blob5_tx]
     = scan BLOCK_RESOURCE_LIMITS MAX_DATA_GAS_PER_BLOCK
         [blob4_tx'] (50000 + gas_used (base ordinary_tx)) 655360
         ([blob5_tx] ++ [ordinary_tx]).
Proof.
  pose proof (scan_cutoffs_asymmetric [blob1_tx; ordinary_tx]
                [blob4_tx; blob1_tx] [blob4_tx'] ordinary_tx
                30000001 0 [huge_tx_1]) as [Hbreak _].
  pose proof (scan_cutoffs_asymmetric []
                [blob4_tx; blob1_tx] [blob4_tx'] ordinary_tx
                50000 655360 [blob5_tx]) as [_ Hskip].
  split; [reflexivity|]. split; [apply Hbreak; reflexivity|].
  split; [discriminate|]. split; [reflexivity|].
  apply Hskip; [discriminate | reflexivity | reflexivity | reflexivity].
Defined.

(** ** The update rules *)

Lemma data_gas_utilization_factor (l : list Tx) :
  DATA_GAS_PER_BLOB
  * sum (map (fun tx => match tx with
                        | Blob b => blob_hashes b
                        | Plain _ => 0
                        end) l)
  = data_gas_utilization l.
Proof.
  unfold data_gas_utilization.
  induction l as [|tx l IH]; [reflexivity|].
  simpl map. rewrite !sum_cons, <- IH.
  destruct tx; cbn [tx_data_gas]; lia.
Qed.

(** C2.  For every prior excess and every block, [update_excess_data_gas]
    returns [max(0, excess + utilized_data - TARGET_DATA_GAS_PER_BLOCK)],
    where [utilized_data] adds [blob_hashes * DATA_GAS_PER_BLOB] for every
    blob transaction of the block and nothing for the others; the value
    returned is never negative. *)
Theorem update_excess_data_gas_spec (s : State) (_input : Signal) :
  snd (update_excess_data_gas s _input)
  = Z.max 0 (excess_data_gas s
             + data_gas_utilization (txs (block _input))
             - TARGET_DATA_GAS_PER_BLOCK)
  /\ 0 <= snd (update_excess_data_gas s _input).
Proof.
  unfold update_excess_data_gas. cbv zeta. cbn [snd].
  rewrite data_gas_utilization_factor. split; lia.
Qed.

(** With no blob transaction in the block the excess drains by the target,
    down to zero (scenario B). *)
Example update_excess_data_gas_scenario_B :
  update_excess_data_gas (state_of [] 1 (2 ^ 18)) (signal_of full_block)
  = ("excess_data_gas"%string, 0).
Proof. vm_compute. reflexivity. Qed.

(** *** Binary64 facts used below *)





(** *** The price update *)

(** [update_price] returns as soon as its two [int] operands convert, and
    then what the formula of the specification gives on the converted
    operands. *)
Lemma update_price_returns (price : number) (_input : Signal)
    (price' utilized' : float) :
  to_float price = Returns price' ->
  float_of_int (gas_utilization (txs (block _input))) = Returns utilized' ->
  update_price price _input
  = Returns ("price"%string, spec_new_price price' utilized' 15e6 8).
Proof.
  intros Hp Hu. unfold update_price. cbv zeta.
  fold (gas_utilization (txs (block _input))). rewrite Hu. cbn [bind].
  change (float_of_int BASEFEE_MAX_CHANGE_DENOMINATOR) with (Returns 8%float).
  cbn [bind]. unfold float_truediv.
  change ((15e6 * 8 =? 0)%float) with false. cbn [bind].
  change (float_of_int 1) with (Returns 1%float). cbn [bind].
  rewrite Hp. reflexivity.
Qed.

(** C3.  For every prior price and every block, [update_price] returns
    [price * (1 + (utilized - target) / (target * change_denominator))],
    where [utilized] is the sum of [gas_used] over the transactions of the
    block, target is 15e6 and the denominator is 8: the value of that
    expression in binary64, on the price and the sum converted to floats.
    For a block that uses exactly 30e6 gas it is [price * 1.125], the
    binary64 product that the Python expression denotes. *)
Theorem update_price_formula (price : number) (_input : Signal)
    (price' utilized' : float) :
  to_float price = Returns price' ->
  float_of_int (gas_utilization (txs (block _input))) = Returns utilized' ->
  update_price price _input
  = Returns ("price"%string, spec_new_price price' utilized' 15e6 8)
  /\ (gas_utilization (txs (block _input)) = 30000000 ->
      update_price price _input
      = Returns ("price"%string, (price' * 1.125)%float)).
Proof.
  intros Hp Hu. split; [now apply update_price_returns|].
  intros Hfull. rewrite (update_price_returns _ _ _ _ Hp Hu).
  rewrite Hfull in Hu.
  change (float_of_int 30000000) with (Returns 30e6%float) in Hu.
  injection Hu as <-. reflexivity.
Qed.

Lemma update_price_formula_witness :
  to_float (PyFloat 0x1.999999999999ap-4) = Returns 0x1.999999999999ap-4%float
  /\ float_of_int (gas_utilization (txs (block (signal_of full_block))))
     = Returns 30e6%float
  /\ gas_utilization (txs (block (signal_of full_block))) = 30000000
  /\ update_price (PyFloat 0x1.999999999999ap-4) (signal_of full_block)
     = Returns ("price"%string, (0x1.999999999999ap-4 * 1.125)%float).
Proof.
  split; [reflexivity|]. split; [vm_compute; reflexivity|].
  split; [vm_compute; reflexivity|].
  apply (proj2 (update_price_formula (PyFloat 0x1.999999999999ap-4)
                  (signal_of full_block) 0x1.999999999999ap-4 30e6
                  eq_refl ltac:(vm_compute; reflexivity))).
  vm_compute. reflexivity.
Defined.

(** The values of [update_price] on some inputs: the float 0.1 and a full
    block (the product is rounded: its value is
    8106479329266893 / 2 ^ 56, just under 0.1125); the [int] 100 and a
    block of 50000 gas; the [int] 10 ^ 17 + 1, which is not a float, and a
    block at the target; a block whose gas is beyond the float range. *)
Example update_price_samples :
  Prim2SF (0x1.999999999999ap-4 * 1.125)
  = S754_finite false 8106479329266893 (-56)
  /\ update_price (PyInt 100) (signal_of small_block)
     = Returns ("price"%string, 0x1.5e2aaaaaaaaaap+6%float)
  /\ update_price (PyInt (10 ^ 17 + 1)) (signal_of target_block)
     = Returns ("price"%string, 1e17%float)
  /\ update_price (PyInt 1) (signal_of overflowing_block) = OverflowError
  /\ update_price (PyInt (10 ^ 400)) (signal_of full_block) = OverflowError.
Proof. repeat split; vm_compute; reflexivity. Qed.




(** A positive factor is not enough: the smallest positive float, halved
    by a block of [-3 * BLOCK_RESOURCE_TARGETS] gas, rounds to zero. *)
Example update_price_underflow :
  (0 <? 0x1p-1074)%float = true
  /\ (0 <? 1 + (-45e6 - 15e6) / (15e6 * 8))%float = true
  /\ update_price (PyFloat 0x1p-1074) (signal_of halving_block)
     = Returns ("price"%string, 0%float).
Proof. repeat split; vm_compute; reflexivity. Qed.

(** C8, as the code has it.  Validation looks at the fee caps only.  In a
    block that [build_block] returns at a non-negative price there is no
    transaction with a negative [max_fee_per_gas], and at any price no blob
    transaction with a [max_fee_per_data_gas] below [MIN_DATA_GASPRICE], a
    negative one in particular. *)
Theorem build_block_rejects_negative_fee_caps (s : State) (signal : Signal) :
  build_block s = Returns signal ->
  (forall tx,
     (0 <= price s)%Q -> (max_fee_per_gas (base tx) < 0)%Q ->
     ~ In tx (txs (block signal)))
  /\ (forall b,
        (max_fee_per_data_gas b < inject_Z MIN_DATA_GASPRICE)%Q ->
        ~ In (Blob b) (txs (block signal))).
Proof.
  intros Hsignal.
  destruct (build_block_returns s) as (price_data & _ & Hmin & Hblk).
  rewrite Hblk in Hsignal. injection Hsignal as <-. cbn [block txs].
  assert (Hvalid : forall tx,
             In tx (scan BLOCK_RESOURCE_LIMITS MAX_DATA_GAS_PER_BLOCK
                      (sorted_valid_demand (demand s) (price s) price_data)
                      0 0 []) ->
             is_valid tx (price s) price_data = true).
  { intros tx Hin. apply In_scan in Hin. destruct Hin as [[]|Hin].
    now apply In_sorted_valid_demand in Hin. }
  split.
  - intros tx Hp Hneg Hin. apply Hvalid in Hin.
    assert (Hfee : (price s <= max_fee_per_gas (base tx))%Q).
    { destruct tx as [t|b]; simpl in Hin |- *.
      - now apply Qle_bool_iff.
      - apply andb_true_iff in Hin. now apply Qle_bool_iff. }
    apply (Qlt_not_le _ _ Hneg). eapply Qle_trans; eassumption.
  - intros b Hlow Hin. apply Hvalid in Hin. simpl in Hin.
    apply andb_true_iff in Hin. destruct Hin as [_ Hdata].
    apply Qle_bool_iff in Hdata. apply (Qlt_not_le _ _ Hlow).
    eapply Qle_trans; [|exact Hdata]. rewrite <- Zle_Qle. exact Hmin.
Qed.

Lemma build_block_rejects_negative_fee_caps_witness :
  build_block negative_caps_state = Returns (signal_of [ordinary_tx])
  /\ In negative_fee_tx (map snd (demand negative_caps_state))
  /\ In negative_data_fee_tx (map snd (demand negative_caps_state))
  /\ (0 <= price negative_caps_state)%Q
  /\ (max_fee_per_gas (base negative_fee_tx) < 0)%Q
  /\ (max_fee_per_data_gas
        (mkBlobTransaction (mkTransaction "f2" 100 1 50000) (-1) 1)
      < inject_Z MIN_DATA_GASPRICE)%Q
  /\ ~ In negative_fee_tx (txs (block (signal_of [ordinary_tx])))
  /\ ~ In negative_data_fee_tx (txs (block (signal_of [ordinary_tx]))).
Proof.
  pose proof (build_block_rejects_negative_fee_caps negative_caps_state
                (signal_of [ordinary_tx]) eq_refl) as [Hfee Hdata].
  split; [reflexivity|].
  split; [left; reflexivity|].
  split; [right; left; reflexivity|].
  split; [discriminate|]. split; [reflexivity|]. split; [reflexivity|].
  split.
  - apply Hfee; [discriminate | reflexivity].
  - apply (Hdata (mkBlobTransaction (mkTransaction "f2" 100 1 50000) (-1) 1)).
    reflexivity.
Defined.

(** C8 fails as stated: the three malformed records pass validation at
    price 1 and data price 1, and all three are in the block. *)
Lemma build_block_includes_malformed :
  gas_used (base negative_gas_tx) < 0
  /\ (max_priority_fee_per_gas (base negative_tip_tx) < 0)%Q
  /\ tx_data_gas negative_blobs_tx < 0
  /\ build_block malformed_state
     = Returns (signal_of
                  [negative_blobs_tx; negative_gas_tx; negative_tip_tx]).
Proof. repeat split; vm_compute; reflexivity. Qed.

(** * Further properties *)

(** ** The oracle on every input *)

(** X1.  [calc_price_data] returns on every integer, negative ones included:
    it never raises and its loop ends; the price is never below
    [MIN_DATA_GASPRICE]. *)
Theorem calc_price_data_total (excess_data_gas : Z) :
  exists price_data,
    calc_price_data excess_data_gas = Returns price_data
    /\ MIN_DATA_GASPRICE <= price_data.
Proof. exact (calc_price_data_returns excess_data_gas). Qed.

(** X2.  With a negative numerator the second term of the series is negative
    and the loop stops there: the result is [factor]. *)
Theorem fake_exponential_negative_numerator (factor numerator denominator : Z) :
  0 < factor -> 0 < denominator -> numerator < 0 ->
  fake_exponential factor numerator denominator = Returns factor.
Proof.
  intros Hf Hd Hn. apply fake_exponential_negative; assumption.
Qed.

Lemma fake_exponential_negative_numerator_witness :
  0 < 1 /\ 0 < 2225652 /\ -393216 < 0
  /\ fake_exponential 1 (-393216) 2225652 = Returns 1.
Proof.
  repeat (split; [reflexivity|]).
  apply (fake_exponential_negative_numerator 1 (-393216) 2225652);
    reflexivity.
Defined.

(** X3.  A zero denominator: the loop is not entered, since the first term
    is [factor * 0], and the final division raises. *)
Theorem fake_exponential_zero_denominator (factor numerator : Z) :
  fake_exponential factor numerator 0 = ZeroDivisionError.
Proof.
  unfold fake_exponential.
  rewrite fake_exponential_loop_done by lia. reflexivity.
Qed.

(** X4.  A factor that is not positive: the loop is not entered and the
    result is 0, whatever the numerator. *)
Theorem fake_exponential_nonpositive_factor (factor numerator denominator : Z) :
  factor <= 0 -> 0 < denominator ->
  fake_exponential factor numerator denominator = Returns 0.
Proof.
  intros Hf Hd. unfold fake_exponential.
  rewrite fake_exponential_loop_done by nia.
  cbn [bind]. rewrite floordiv_returns by lia. reflexivity.
Qed.

Lemma fake_exponential_nonpositive_factor_witness :
  -3 <= 0 /\ 0 < 2225652
  /\ fake_exponential (-3) 22256520 2225652 = Returns 0.
Proof.
  split; [discriminate|]. split; [reflexivity|].
  apply (fake_exponential_nonpositive_factor (-3) 22256520 2225652);
    [discriminate | reflexivity].
Defined.

(** X5.  The result is at least the first two terms of the series: [factor +
    factor * numerator // denominator]. *)
Theorem fake_exponential_linear_lower_bound (factor numerator denominator : Z) :
  0 < factor -> 0 < denominator -> 0 <= numerator ->
  exists p,
    fake_exponential factor numerator denominator = Returns p
    /\ factor + factor * numerator / denominator <= p.
Proof.
  intros Hf Hd Hn.
  destruct (fake_exponential_returns factor denominator Hd numerator Hn)
    as (output & Hloop & Hres).
  exists (output / denominator). split; [exact Hres|].
  assert (Hout : factor * denominator + factor * numerator <= output).
  { destruct (fake_exponential_fuel factor numerator denominator)
      as [|fuel].
    { simpl in Hloop.
      replace (factor * denominator >? 0) with true in Hloop
        by (symmetry; apply Z.gtb_lt; nia).
      discriminate. }
    rewrite fake_exponential_loop_step in Hloop by nia.
    replace (factor * denominator * numerator / (denominator * 1))
      with (factor * numerator) in Hloop
      by (replace (factor * denominator * numerator)
            with (factor * numerator * (denominator * 1)) by lia;
          rewrite Z.div_mul by lia; reflexivity).
    destruct (Z.eq_dec numerator 0) as [->|Hpos].
    - apply fake_exponential_loop_ge in Hloop; lia.
    - destruct fuel as [|fuel].
      { simpl in Hloop.
        replace (factor * numerator >? 0) with true in Hloop
          by (symmetry; apply Z.gtb_lt; nia).
        discriminate. }
      rewrite fake_exponential_loop_step in Hloop by nia.
      apply fake_exponential_loop_ge in Hloop; lia. }
  replace (factor + factor * numerator / denominator)
    with ((factor * denominator + factor * numerator) / denominator).
  - apply Z.div_le_mono; assumption.
  - rewrite Z.add_comm, Z.div_add by lia. lia.
Qed.

Lemma fake_exponential_linear_lower_bound_witness :
  0 < 1 /\ 0 < 2225652 /\ 0 <= 22256520
  /\ exists p,
       fake_exponential 1 22256520 2225652 = Returns p
       /\ 1 + 1 * 22256520 / 2225652 <= p.
Proof.
  split; [reflexivity|]. split; [reflexivity|]. split; [discriminate|].
  apply (fake_exponential_linear_lower_bound 1 22256520 2225652);
    [reflexivity | reflexivity | discriminate].
Defined.

(** ** Validity *)

(** X6.  A transaction that is valid at some prices is valid at all lower
    ones. *)
Theorem is_valid_antitone (tx : Tx) (price price' : Q)
    (price_data price_data' : Z) :
  (price' <= price)%Q -> price_data' <= price_data ->
  is_valid tx price price_data = true ->
  is_valid tx price' price_data' = true.
Proof.
  intros Hp Hd. destruct tx as [t|b]; simpl.
  - rewrite !Qle_bool_iff. intros H. eapply Qle_trans; eassumption.
  - rewrite !andb_true_iff, !Qle_bool_iff. intros [H1 H2]. split.
    + eapply Qle_trans; eassumption.
    + eapply Qle_trans; [|exact H2]. now rewrite <- Zle_Qle.
Qed.

Lemma is_valid_antitone_witness :
  (80 <= 100)%Q /\ 1 <= 2
  /\ is_valid blob4_tx 100 2 = true
  /\ is_valid blob4_tx 80 1 = true.
Proof.
  split; [discriminate|]. split; [discriminate|]. split; [reflexivity|].
  apply (is_valid_antitone blob4_tx 100 80 2 1);
    [discriminate | discriminate | reflexivity].
Defined.

(** ** The sort *)



(** ** More on the scan *)

Lemma gas_utilization_cons (tx : Tx) (l : list Tx) :
  gas_utilization (tx :: l) = gas_used (base tx) + gas_utilization l.
Proof. unfold gas_utilization. cbn [map]. apply sum_cons. Qed.

Lemma data_gas_utilization_cons (tx : Tx) (l : list Tx) :
  data_gas_utilization (tx :: l) = tx_data_gas tx + data_gas_utilization l.
Proof. unfold data_gas_utilization. cbn [map]. apply sum_cons. Qed.

Lemma gas_utilization_nonneg (l : list Tx) :
  (forall tx, In tx l -> 0 <= gas_used (base tx)) -> 0 <= gas_utilization l.
Proof.
  induction l as [|tx l IH]; intros H; [discriminate|].
  rewrite gas_utilization_cons.
  assert (0 <= gas_used (base tx)) by (apply H; now left).
  assert (0 <= gas_utilization l) by (apply IH; intros; apply H; now right).
  lia.
Qed.

Lemma data_gas_utilization_nonneg (l : list Tx) :
  (forall tx, In tx l -> 0 <= tx_data_gas tx) -> 0 <= data_gas_utilization l.
Proof.
  induction l as [|tx l IH]; intros H; [discriminate|].
  rewrite data_gas_utilization_cons.
  assert (0 <= tx_data_gas tx) by (apply H; now left).
  assert (0 <= data_gas_utilization l)
    by (apply IH; intros; apply H; now right).
  lia.
Qed.




Section ScanMore.

Variables gas_limit data_limit : Z.

(** The tests of one iteration, case by case. *)
Ltac iteration u ud :=
  cbn [scan];
  destruct (Z.leb_spec u gas_limit);
  [ match goal with
    | |- context [match ?tx with Plain _ => _ | Blob _ => _ end] =>
        destruct tx
    end;
    [ | destruct (Z.leb_spec ud data_limit);
        [ | replace (ud >? data_limit) with true
              by (symmetry; apply Z.gtb_lt; lia) ] ]
  | ].

(** When everything pending fits under both limits, everything is
    included. *)
Lemma scan_includes_all (pending : list Tx) :
  forall (u ud : Z) (inc : list Tx),
    (forall tx, In tx pending ->
       0 <= gas_used (base tx) /\ 0 <= tx_data_gas tx) ->
    u + gas_utilization pending <= gas_limit ->
    ud + data_gas_utilization pending <= data_limit ->
    scan gas_limit data_limit pending u ud inc = inc ++ pending.
Proof.
  induction pending as [|tx rest IH]; intros u ud inc Hpos Hu Hud.
  - cbn [scan]. now rewrite app_nil_r.
  - rewrite gas_utilization_cons in Hu.
    rewrite data_gas_utilization_cons in Hud.
    assert (Hrest : forall tx', In tx' rest ->
              0 <= gas_used (base tx') /\ 0 <= tx_data_gas tx')
      by (intros; apply Hpos; now right).
    destruct (Hpos tx (or_introl eq_refl)) as [Hg Hd].
    assert (0 <= gas_utilization rest)
      by (apply gas_utilization_nonneg; intros; now apply Hrest).
    assert (0 <= data_gas_utilization rest)
      by (apply data_gas_utilization_nonneg; intros; now apply Hrest).
    iteration u ud; try lia.
    + rewrite IH by (assumption || (cbn [tx_data_gas] in *; lia)).
      now rewrite <- app_assoc.
    + rewrite IH by (assumption || (cbn [tx_data_gas] in *; lia)).
      now rewrite <- app_assoc.
Qed.



End ScanMore.

(** ** More on the block builder *)










(** ** The backtest builder *)

(** X14.  [build_block_from_data] returns on every state, and its block
    depends on the demand only: neither the price nor the excess data gas
    has a part in it. *)
Theorem build_block_from_data_ignores_prices (s : State) :
  exists signal,
    build_block_from_data s = Returns signal
    /\ forall s', demand s' = demand s ->
         build_block_from_data s' = Returns signal.
Proof.
  assert (H : forall s0,
             build_block_from_data s0
             = Returns (signal_of
                          (scan BLOCK_RESOURCE_LIMITS MAX_DATA_GAS_PER_BLOCK
                             (map snd (demand s0)) 0 0 []))).
  { intros s0. unfold build_block_from_data.
    destruct (calc_price_data_returns (excess_data_gas s0)) as (pd & -> & _).
    reflexivity. }
  eexists. split; [apply H|].
  intros s' E. rewrite H, E. reflexivity.
Qed.

(** X15.  The two overshoot bounds hold for the block of
    [build_block_from_data] as well. *)
Theorem build_block_from_data_overshoot (s : State) :
  exists signal,
    build_block_from_data s = Returns signal
    /\ gas_utilization (txs (block signal))
       <= BLOCK_RESOURCE_LIMITS + largest_gas_used (txs (block signal))
    /\ data_gas_utilization (txs (block signal))
       <= MAX_DATA_GAS_PER_BLOCK + largest_data_gas (txs (block signal)).
Proof.
  unfold build_block_from_data.
  destruct (calc_price_data_returns (excess_data_gas s)) as (pd & -> & _).
  cbn [bind]. cbv zeta. eexists. split; [reflexivity|]. cbn [block txs].
  split.
  - apply scan_gas_bound; [reflexivity | exact gas_limit_nonneg].
  - apply scan_data_gas_bound; [reflexivity | exact data_limit_nonneg].
Qed.

(** X16.  When the pending transactions use non-negative amounts of gas and
    data gas and together fit under both limits, [build_block_from_data]
    includes all of them, valid or not, in the order of the demand. *)
Theorem build_block_from_data_includes_all (s : State) :
  (forall item, In item (demand s) ->
     0 <= gas_used (base (snd item)) /\ 0 <= tx_data_gas (snd item)) ->
  gas_utilization (map snd (demand s)) <= BLOCK_RESOURCE_LIMITS ->
  data_gas_utilization (map snd (demand s)) <= MAX_DATA_GAS_PER_BLOCK ->
  build_block_from_data s = Returns (signal_of (map snd (demand s))).
Proof.
  intros Hpos Hgas Hdata. unfold build_block_from_data.
  destruct (calc_price_data_returns (excess_data_gas s)) as (pd & -> & _).
  cbn [bind]. cbv zeta.
  rewrite scan_includes_all; [reflexivity | | lia | lia].
  intros tx Hin. apply in_map_iff in Hin.
  destruct Hin as (item & <- & Hin). apply Hpos, Hin.
Qed.

Lemma build_block_from_data_includes_all_witness :
  is_valid fee90_tx 1000 1 = false
  /\ build_block_from_data (state_of [fee90_tx; blob1_tx; fee120_tx] 1000 0)
     = Returns (signal_of [fee90_tx; blob1_tx; fee120_tx]).
Proof.
  split; [reflexivity|].
  refine (build_block_from_data_includes_all
            (state_of [fee90_tx; blob1_tx; fee120_tx] 1000 0) _ _ _).
  - intros item [<-|[<-|[<-|[]]]]; split; discriminate.
  - discriminate.
  - discriminate.
Defined.

(** ** More on the update rules *)

(** Multiplying by the float 1 changes nothing: the mantissa, shifted
    left by 52 bits for the product, is shifted back without loss. *)
Lemma digits2_pos_shift52 (m : positive) :
  Z.pos (digits2_pos (4503599627370496 * m)) = Z.pos (digits2_pos m) + 52.
Proof. cbn [Pos.mul digits2_pos]. lia. Qed.

Lemma iter_shr_1_52 (m : positive) :
  iter_pos shr_1 52
    (shr_record_of_loc (Z.pos (4503599627370496 * m)) loc_Exact)
  = Build_shr_record (Z.pos m) false false.
Proof. cbn [Pos.mul]. reflexivity. Qed.

Lemma shr_fexp_shift52 (m : positive) (e : Z) :
  fexp prec emax (Z.pos (digits2_pos m) + e) = e ->
  shr_fexp prec emax (Z.pos (4503599627370496 * m)) (e + -52) loc_Exact
  = (Build_shr_record (Z.pos m) false false, e).
Proof.
  intros Hc. unfold shr_fexp. cbn [Zdigits2].
  rewrite digits2_pos_shift52.
  replace (Z.pos (digits2_pos m) + 52 + (e + -52))
    with (Z.pos (digits2_pos m) + e) by lia.
  rewrite Hc. replace (e - (e + -52)) with 52 by lia.
  unfold shr. rewrite iter_shr_1_52. f_equal. lia.
Qed.

Lemma shr_fexp_canonical (m : positive) (e : Z) :
  fexp prec emax (Z.pos (digits2_pos m) + e) = e ->
  shr_fexp prec emax (Z.pos m) e loc_Exact
  = (Build_shr_record (Z.pos m) false false, e).
Proof.
  intros Hc. unfold shr_fexp. cbn [Zdigits2].
  rewrite Hc, Z.sub_diag. reflexivity.
Qed.

Lemma SFmul_one (x : spec_float) :
  SpecFloat.valid_binary prec emax x = true ->
  SFmul prec emax x (S754_finite false 4503599627370496 (-52)) = x.
Proof.
  destruct x as [s|s| |s m e]; try (destruct s; reflexivity);
    try reflexivity.
  intros Hv. cbn [SpecFloat.valid_binary] in Hv. unfold bounded in Hv.
  apply andb_true_iff in Hv. destruct Hv as [Hc He].
  unfold canonical_mantissa in Hc. apply Z.eqb_eq in Hc.
  cbn [SFmul]. rewrite (Pos.mul_comm m), xorb_false_r.
  unfold binary_round_aux.
  rewrite (shr_fexp_shift52 m e Hc).
  cbn [shr_m loc_of_shr_record round_nearest_even].
  rewrite (shr_fexp_canonical m e Hc).
  cbn [shr_m]. rewrite He. reflexivity.
Qed.

Lemma float_mul_one (p : float) : (p * 1)%float = p.
Proof.
  apply Prim2SF_inj. rewrite mul_spec.
  change (Prim2SF 1) with (S754_finite false 4503599627370496 (-52)).
  apply SFmul_one, Prim2SF_valid.
Qed.

(** X17.  A block at the gas target leaves the price as it is, up to its
    conversion: [update_price] returns the prior price as a float. *)
Theorem update_price_at_target (price : number) (_input : Signal)
    (price' : float) :
  to_float price = Returns price' ->
  gas_utilization (txs (block _input)) = BLOCK_RESOURCE_TARGETS ->
  update_price price _input = Returns ("price"%string, price').
Proof.
  intros Hp Hu.
  rewrite (update_price_returns price _input price' 15e6 Hp)
    by (rewrite Hu; reflexivity).
  unfold spec_new_price.
  change (1 + (15e6 - 15e6) / (15e6 * 8))%float with 1%float.
  rewrite float_mul_one. reflexivity.
Qed.

Lemma update_price_at_target_witness :
  to_float (PyInt (10 ^ 17 + 1)) = Returns 1e17%float
  /\ gas_utilization (txs (block (signal_of target_block)))
     = BLOCK_RESOURCE_TARGETS
  /\ update_price (PyInt (10 ^ 17 + 1)) (signal_of target_block)
     = Returns ("price"%string, 1e17%float).
Proof.
  split; [vm_compute; reflexivity|]. split; [vm_compute; reflexivity|].
  apply (update_price_at_target (PyInt (10 ^ 17 + 1))
           (signal_of target_block) 1e17); vm_compute; reflexivity.
Defined.

(** X24.  A block that uses no gas, an empty one in particular, makes
    [update_price] return the binary64 product of the prior price and
    0.875. *)
Theorem update_price_no_gas (price : number) (_input : Signal)
    (price' : float) :
  to_float price = Returns price' ->
  gas_utilization (txs (block _input)) = 0 ->
  update_price price _input
  = Returns ("price"%string, (price' * 0.875)%float).
Proof.
  intros Hp Hu.
  rewrite (update_price_returns price _input price' 0 Hp)
    by (rewrite Hu; reflexivity).
  reflexivity.
Qed.

Lemma update_price_no_gas_witness :
  to_float (PyFloat 0x1.0000000000003p+0) = Returns 0x1.0000000000003p+0%float
  /\ gas_utilization (txs (block (signal_of []))) = 0
  /\ update_price (PyFloat 0x1.0000000000003p+0) (signal_of [])
     = Returns ("price"%string, (0x1.0000000000003p+0 * 0.875)%float).
Proof.
  split; [reflexivity|]. split; [reflexivity|].
  apply (update_price_no_gas (PyFloat 0x1.0000000000003p+0) (signal_of [])
           0x1.0000000000003p+0); reflexivity.
Defined.

(** That product is rounded: here it is 31525197391593492 / 2 ^ 55, just
    under seven eighths of the price, 31525197391593493 / 2 ^ 55. *)
Example update_price_no_gas_rounds :
  Prim2SF (0x1.0000000000003p+0 * 0.875)
  = S754_finite false 7881299347898373 (-53).
Proof. vm_compute. reflexivity. Qed.

(** X20.  A block without blob transactions drains the excess by the target,
    and not below zero. *)
Theorem update_excess_data_gas_no_blob (s : State) (_input : Signal) :
  forallb (fun tx => negb (is_blob tx)) (txs (block _input)) = true ->
  snd (update_excess_data_gas s _input)
  = Z.max (excess_data_gas s - TARGET_DATA_GAS_PER_BLOCK) 0.
Proof.
  intros Hnone. unfold update_excess_data_gas. cbv zeta. cbn [snd].
  rewrite data_gas_utilization_factor,
    (data_gas_utilization_no_blob _ Hnone).
  lia.
Qed.

Lemma update_excess_data_gas_no_blob_witness :
  forallb (fun tx => negb (is_blob tx))
    (txs (block (signal_of target_block))) = true
  /\ snd (update_excess_data_gas (state_of [] 1 393216)
            (signal_of target_block))
     = Z.max (393216 - TARGET_DATA_GAS_PER_BLOCK) 0.
Proof.
  split; [vm_compute; reflexivity|].
  apply (update_excess_data_gas_no_blob (state_of [] 1 393216)
           (signal_of target_block)).
  vm_compute. reflexivity.
Defined.

(** X21.  More excess before, or more data gas in the block, never gives
    less excess after. *)
Theorem update_excess_data_gas_monotone (s1 s2 : State)
    (_input1 _input2 : Signal) :
  excess_data_gas s1 <= excess_data_gas s2 ->
  data_gas_utilization (txs (block _input1))
  <= data_gas_utilization (txs (block _input2)) ->
  snd (update_excess_data_gas s1 _input1)
  <= snd (update_excess_data_gas s2 _input2).
Proof.
  intros He Hd. unfold update_excess_data_gas. cbv zeta. cbn [snd].
  rewrite !data_gas_utilization_factor. lia.
Qed.

Lemma update_excess_data_gas_monotone_witness :
  excess_data_gas (state_of [] 1 0) <= excess_data_gas (state_of [] 1 393216)
  /\ data_gas_utilization (txs (block (signal_of [blob1_tx])))
     <= data_gas_utilization (txs (block (signal_of [blob4_tx])))
  /\ snd (update_excess_data_gas (state_of [] 1 0) (signal_of [blob1_tx]))
     <= snd (update_excess_data_gas (state_of [] 1 393216)
               (signal_of [blob4_tx])).
Proof.
  split; [discriminate|]. split; [vm_compute; discriminate|].
  apply (update_excess_data_gas_monotone (state_of [] 1 0)
           (state_of [] 1 393216) (signal_of [blob1_tx])
           (signal_of [blob4_tx])).
  - discriminate.
  - vm_compute. discriminate.
Defined.
